(** * sleepiq: the generated SDK façade over the generic REST engine

    A shallow embedding of [src/index.ts].  The class [SDK] holds two
    fields, [spec] and [core]; every method is a single call on
    [this.core].  The engine ([APICore] of the [api] package) is an
    external collaborator: the façade's methods are written here as
    programs over the engine's four entry points, and are interpreted
    against an arbitrary engine ([Engine]) or against the engine the
    specification describes ([SpecEngine]). *)

From Stdlib Require Import ZArith String Ascii List Bool Lia DecimalString.
From stdpp Require Import base list.
Import ListNotations.

Local Open Scope string_scope.

(** ** Values exchanged with the engine *)

#[local] Set Warnings "-register-all".

(** Plain JSON-like data: request bodies, metadata objects, payloads. *)
Inductive Json : Type :=
| JNull
| JBool (b : bool)
| JNum (n : Z)
| JStr (s : string)
| JArr (items : list Json)
| JObj (fields : list (string * Json)).

(** The verbs of [HttpMethods]; the façade only ever writes ['get'] and
    ['put']. *)
Module Verb.
Inductive t : Set := get | put | post | delete | patch | head | options | trace.

Definition eqb (a b : t) : bool :=
  match a, b with
  | get, get | put, put | post, post | delete, delete
  | patch, patch | head, head | options, options | trace, trace => true
  | _, _ => false
  end.
End Verb.

(** One credential value, a string or a number; [auth] takes a list of
    them ([...values: string[] | number[]]). *)
Inductive Credential : Type :=
| CredString (s : string)
| CredNumber (n : Z).

Definition AuthValues := list Credential.

(** [ConfigOptions]: the one documented option is [timeout] (ms). *)
Record ConfigOptions : Type := { timeout : option Z }.

(** [FetchResponse<status, data>]: the response wrapper. *)
Record FetchResponse : Type :=
  { status : Z; data : Json; headers : list (string * string) }.

(** What a rejected call carries. *)
Inductive Failure : Type :=
| TransportFailure (message : string)
| FetchError (response : FetchResponse)
| InputError (message : string).

(** The settled state of the promise a domain method returns. *)
Inductive Promise : Type :=
| Resolved (response : FetchResponse)
| Rejected (reason : Failure).

(** Object references (addresses of [SDK] instances). *)
Abbreviation ref := nat.

(** What a façade method returns to its caller. *)
Inductive Value : Type :=
| undefined
| Instance (this : ref)
| Async (p : Promise).

(** ** Calls on [this.core] *)

Inductive CoreCall : Type :=
| setConfig (config : ConfigOptions)
| setAuth (values : AuthValues)
| setServer (url : string) (variables : Json)
| fetch (path : string) (method : Verb.t) (args : list Json).

(** What the façade receives back from each call.  The value returned by
    the three setters is dropped by the façade. *)
Definition CoreRet (c : CoreCall) : Type :=
  match c with
  | fetch _ _ _ => Promise
  | _ => unit
  end.

(** A method body: a finite sequence of calls on [this.core] ending in a
    return. *)
Inductive Prog (A : Type) : Type :=
| Ret (a : A)
| Call (c : CoreCall) (k : CoreRet c -> Prog A).

Arguments Ret {A} a.
Arguments Call {A} c k.

(** ** The class [SDK] (src/index.ts, lines 7-210) *)

Module SDKMethods.
Section Methods.

Variable this : ref.

(** [config(config) { this.core.setConfig(config); }] *)
Definition config (config : ConfigOptions) : Prog Value :=
  Call (setConfig config) (fun _ => Ret undefined).

(** [auth(...values) { this.core.setAuth(...values); return this; }] *)
Definition auth (values : AuthValues) : Prog Value :=
  Call (setAuth values) (fun _ => Ret (Instance this)).

(** [server(url, variables = {}) { this.core.setServer(url, variables); }] *)
Definition server (url : string) (variables : option Json) : Prog Value :=
  let variables := match variables with Some v => v | None => JObj [] end in
  Call (setServer url variables) (fun _ => Ret undefined).

Definition login (body : Json) : Prog Value :=
  Call (fetch "/login" Verb.put [body]) (fun p => Ret (Async p)).

Definition getJwt : Prog Value :=
  Call (fetch "/user/jwt" Verb.get []) (fun p => Ret (Async p)).

Definition getAccount : Prog Value :=
  Call (fetch "/account" Verb.get []) (fun p => Ret (Async p)).

Definition getBed (metadata : Json) : Prog Value :=
  Call (fetch "/bed/{bedId}" Verb.get [metadata]) (fun p => Ret (Async p)).

Definition getPauseMode (metadata : Json) : Prog Value :=
  Call (fetch "/bed/{bedId}/pauseMode" Verb.get [metadata])
       (fun p => Ret (Async p)).

Definition setPauseMode (body metadata : Json) : Prog Value :=
  Call (fetch "/bed/{bedId}/pauseMode" Verb.put [body; metadata])
       (fun p => Ret (Async p)).

Definition stopPump (metadata : Json) : Prog Value :=
  Call (fetch "/bed/{bedId}/pump/forceIdle" Verb.put [metadata])
       (fun p => Ret (Async p)).

Definition setSleepNumber (body metadata : Json) : Prog Value :=
  Call (fetch "/bed/{bedId}/sleepNumber" Verb.put [body; metadata])
       (fun p => Ret (Async p)).

Definition getFavorite (metadata : Json) : Prog Value :=
  Call (fetch "/bed/{bedId}/sleepNumberFavorite" Verb.get [metadata])
       (fun p => Ret (Async p)).

Definition setFavorite (body metadata : Json) : Prog Value :=
  Call (fetch "/bed/{bedId}/sleepNumberFavorite" Verb.put [body; metadata])
       (fun p => Ret (Async p)).

Definition getFoundation (metadata : Json) : Prog Value :=
  Call (fetch "/bed/{bedId}/foundation/status" Verb.get [metadata])
       (fun p => Ret (Async p)).

Definition checkOutlet (metadata : Json) : Prog Value :=
  Call (fetch "/bed/{bedId}/foundation/outlet" Verb.get [metadata])
       (fun p => Ret (Async p)).

Definition getFootWarming (metadata : Json) : Prog Value :=
  Call (fetch "/bed/{bedId}/foundation/footwarming" Verb.get [metadata])
       (fun p => Ret (Async p)).

Definition calibrate (metadata : Json) : Prog Value :=
  Call (fetch "/sleeper/{sleeperId}/calibrate" Verb.put [metadata])
       (fun p => Ret (Async p)).

Definition executeBam (body metadata : Json) : Prog Value :=
  Call (fetch "/sn/v1/accounts/{accountId}/beds/{bedId}/bamkey" Verb.put
              [body; metadata])
       (fun p => Ret (Async p)).

End Methods.
End SDKMethods.

(** ** The bound API description *)

(** An operation of the description, as far as the façade and the engine
    use it: the path template, the verb, and whether the operation
    declares a request body. *)
Record Operation : Type :=
  { op_path : string; op_method : Verb.t; op_has_body : bool }.

Definition Oas := list Operation.

(** Modelled from the spec: [openapi.json], the bound API description, is
    not among the sources.  Paths and verbs are those of the spec's table
    of representative operations (section 6), in the order of the façade's
    methods; an operation declares a request body exactly when the
    generated method has a [body] parameter. *)
Definition definition : Oas :=
  [ {| op_path := "/login"; op_method := Verb.put; op_has_body := true |};
    {| op_path := "/user/jwt"; op_method := Verb.get; op_has_body := false |};
    {| op_path := "/account"; op_method := Verb.get; op_has_body := false |};
    {| op_path := "/bed/{bedId}"; op_method := Verb.get; op_has_body := false |};
    {| op_path := "/bed/{bedId}/pauseMode"; op_method := Verb.get;
       op_has_body := false |};
    {| op_path := "/bed/{bedId}/pauseMode"; op_method := Verb.put;
       op_has_body := true |};
    {| op_path := "/bed/{bedId}/pump/forceIdle"; op_method := Verb.put;
       op_has_body := false |};
    {| op_path := "/bed/{bedId}/sleepNumber"; op_method := Verb.put;
       op_has_body := true |};
    {| op_path := "/bed/{bedId}/sleepNumberFavorite"; op_method := Verb.get;
       op_has_body := false |};
    {| op_path := "/bed/{bedId}/sleepNumberFavorite"; op_method := Verb.put;
       op_has_body := true |};
    {| op_path := "/bed/{bedId}/foundation/status"; op_method := Verb.get;
       op_has_body := false |};
    {| op_path := "/bed/{bedId}/foundation/outlet"; op_method := Verb.get;
       op_has_body := false |};
    {| op_path := "/bed/{bedId}/foundation/footwarming"; op_method := Verb.get;
       op_has_body := false |};
    {| op_path := "/sleeper/{sleeperId}/calibrate"; op_method := Verb.put;
       op_has_body := false |};
    {| op_path := "/sn/v1/accounts/{accountId}/beds/{bedId}/bamkey";
       op_method := Verb.put; op_has_body := true |} ].

(** [Oas.init(definition)] *)
Definition Oas_init (d : Oas) : Oas := d.

(** ** The engine, as the façade sees it *)

(** An engine is the state of an [APICore] object, the world outside the
    process, and the four entry points the façade calls.  [e_fetch] may
    change both. *)
Record Engine : Type :=
  { CoreT : Type;
    World : Type;
    new_APICore : Oas -> string -> CoreT;
    e_setConfig : ConfigOptions -> CoreT -> CoreT;
    e_setAuth : AuthValues -> CoreT -> CoreT;
    e_setServer : string -> Json -> CoreT -> CoreT;
    e_fetch : string -> Verb.t -> list Json -> CoreT -> World ->
              Promise * CoreT * World }.

Section Running.

Context (E : Engine).

(** One call on [this.core]. *)
Definition handle (c : CoreCall) (st : CoreT E) (w : World E)
  : CoreRet c * CoreT E * World E :=
  match c return CoreRet c * CoreT E * World E with
  | setConfig cfg => (tt, e_setConfig E cfg st, w)
  | setAuth values => (tt, e_setAuth E values st, w)
  | setServer url variables => (tt, e_setServer E url variables st, w)
  | fetch path method args => e_fetch E path method args st w
  end.

(** Running a method body against the engine; the last component lists
    the calls made on [this.core], in order. *)
Fixpoint run {A : Type} (p : Prog A) (st : CoreT E) (w : World E)
  : A * CoreT E * World E * list CoreCall :=
  match p with
  | Ret a => (a, st, w, [])
  | Call c k =>
      let '(r, st1, w1) := handle c st w in
      let '(a, st2, w2, calls) := run (k r) st1 w1 in
      (a, st2, w2, c :: calls)
  end.

(** An [SDK] object: its two fields. *)
Record SDK : Type := { spec : Oas; core : CoreT E }.

(** [constructor()] *)
Definition SDK_constructor : SDK :=
  let spec := Oas_init definition in
  {| spec := spec; core := new_APICore E spec "sleepiq/1.0.0 (api/6.1.3)" |}.

(** A process: the objects allocated so far, the module's record once it
    has been evaluated, and the outside world. *)
Record Process : Type :=
  { heap : list SDK; loaded : option ref; world : World E }.

(** [new SDK()] *)
Definition new_SDK (P : Process) : ref * Process :=
  (length (heap P),
   {| heap := heap P ++ [SDK_constructor]; loaded := loaded P;
      world := world P |}).

(** The module body: [const createSDK = (() => { return new SDK(); })();
    export default createSDK;] *)
Definition module_body (P : Process) : ref * Process :=
  let '(createSDK, P1) := new_SDK P in
  (createSDK, P1).

(** [import sleepiq from 'sleepiq']: the module body is evaluated on the
    first import and its record is kept; later imports read the record. *)
Definition import_default (P : Process) : ref * Process :=
  match loaded P with
  | Some createSDK => (createSDK, P)
  | None =>
      let '(createSDK, P1) := module_body P in
      (createSDK,
       {| heap := heap P1; loaded := Some createSDK; world := world P1 |})
  end.

(** A method call [this.m(...)]: the body runs on the [core] of the
    object at [this]; the object's fields are never assigned. *)
Definition invoke (this : ref) (m : ref -> Prog Value) (P : Process)
  : option (Value * Process * list CoreCall) :=
  match heap P !! this with
  | None => None
  | Some obj =>
      let '(v, st, w, calls) := run (m this) (core obj) (world P) in
      Some (v,
            {| heap := <[this := {| spec := spec obj; core := st |}]> (heap P);
               loaded := loaded P; world := w |},
            calls)
  end.

(** [n] imports in a row, by as many importers. *)
Fixpoint imports (n : nat) (P : Process) : list ref * Process :=
  match n with
  | O => ([], P)
  | S k =>
      let '(r, P1) := import_default P in
      let '(rs, P2) := imports k P1 in
      (r :: rs, P2)
  end.

(** A second method call, made in the process the first one left. *)
Definition invoke_then (earlier : option (Value * Process * list CoreCall))
    (this : ref) (m : ref -> Prog Value)
  : option (Value * Process * list CoreCall) :=
  match earlier with
  | Some (_, P1, _) => invoke this m P1
  | None => None
  end.

(** A process in which nothing has been loaded yet. *)
Definition boot (w : World E) : Process :=
  {| heap := []; loaded := None; world := w |}.

(** The calls a method body makes on [this.core]. *)
Definition calls_of {A : Type} (p : Prog A) (st : CoreT E) (w : World E)
  : list CoreCall :=
  snd (run p st w).

End Running.

Arguments spec {E} _.
Arguments core {E} _.
Arguments heap {E} _.
Arguments loaded {E} _.
Arguments world {E} _.

(** ** Calls a client can make on the façade *)

(** The fifteen domain operations with the arguments their signatures
    take ([body] first, [metadata] second, as declared). *)
Inductive DomainCall : Type :=
| call_login (body : Json)
| call_getJwt
| call_getAccount
| call_getBed (metadata : Json)
| call_getPauseMode (metadata : Json)
| call_setPauseMode (body metadata : Json)
| call_stopPump (metadata : Json)
| call_setSleepNumber (body metadata : Json)
| call_getFavorite (metadata : Json)
| call_setFavorite (body metadata : Json)
| call_getFoundation (metadata : Json)
| call_checkOutlet (metadata : Json)
| call_getFootWarming (metadata : Json)
| call_calibrate (metadata : Json)
| call_executeBam (body metadata : Json).

(** The method each call runs. *)
Definition perform (c : DomainCall) : Prog Value :=
  match c with
  | call_login body => SDKMethods.login body
  | call_getJwt => SDKMethods.getJwt
  | call_getAccount => SDKMethods.getAccount
  | call_getBed metadata => SDKMethods.getBed metadata
  | call_getPauseMode metadata => SDKMethods.getPauseMode metadata
  | call_setPauseMode body metadata => SDKMethods.setPauseMode body metadata
  | call_stopPump metadata => SDKMethods.stopPump metadata
  | call_setSleepNumber body metadata => SDKMethods.setSleepNumber body metadata
  | call_getFavorite metadata => SDKMethods.getFavorite metadata
  | call_setFavorite body metadata => SDKMethods.setFavorite body metadata
  | call_getFoundation metadata => SDKMethods.getFoundation metadata
  | call_checkOutlet metadata => SDKMethods.checkOutlet metadata
  | call_getFootWarming metadata => SDKMethods.getFootWarming metadata
  | call_calibrate metadata => SDKMethods.calibrate metadata
  | call_executeBam body metadata => SDKMethods.executeBam body metadata
  end.

(** The caller's [body] argument, when the method has one. *)
Definition body_of (c : DomainCall) : option Json :=
  match c with
  | call_login body
  | call_setPauseMode body _
  | call_setSleepNumber body _
  | call_setFavorite body _
  | call_executeBam body _ => Some body
  | _ => None
  end.

(** The caller's [metadata] argument, when the method has one. *)
Definition metadata_of (c : DomainCall) : option Json :=
  match c with
  | call_login _ | call_getJwt | call_getAccount => None
  | call_getBed metadata
  | call_getPauseMode metadata
  | call_setPauseMode _ metadata
  | call_stopPump metadata
  | call_setSleepNumber _ metadata
  | call_getFavorite metadata
  | call_setFavorite _ metadata
  | call_getFoundation metadata
  | call_checkOutlet metadata
  | call_getFootWarming metadata
  | call_calibrate metadata
  | call_executeBam _ metadata => Some metadata
  end.

(** The caller's arguments, in the order given. *)
Definition arguments (c : DomainCall) : list Json :=
  match body_of c, metadata_of c with
  | Some b, Some m => [b; m]
  | Some b, None => [b]
  | None, Some m => [m]
  | None, None => []
  end.

(** The first call a method body makes on [this.core], if any. *)
Definition first_call {A : Type} (p : Prog A) : option CoreCall :=
  match p with
  | Ret _ => None
  | Call c _ => Some c
  end.


(** The third and fourth positional arguments of a [fetch] call (the
    first two are the path and the verb). *)
Definition third_argument (c : CoreCall) : option Json :=
  match c with
  | fetch _ _ args => args !! 0%nat
  | _ => None
  end.

Definition fourth_argument (c : CoreCall) : option Json :=
  match c with
  | fetch _ _ args => args !! 1%nat
  | _ => None
  end.

(** Whether a call on [this.core] is one of the three setters. *)
Definition is_setter (c : CoreCall) : bool :=
  match c with
  | fetch _ _ _ => false
  | _ => true
  end.

(** Every call a client can make on a façade instance. *)
Inductive FacadeCall : Type :=
| Config (config : ConfigOptions)
| Auth (values : AuthValues)
| Server (url : string) (variables : option Json)
| Domain (c : DomainCall).

Definition method_of (f : FacadeCall) (this : ref) : Prog Value :=
  match f with
  | Config config => SDKMethods.config config
  | Auth values => SDKMethods.auth this values
  | Server url variables => SDKMethods.server url variables
  | Domain c => perform c
  end.

Definition is_auth (f : FacadeCall) : bool :=
  match f with
  | Auth _ => true
  | _ => false
  end.

(** ** The operations as the specification lists them *)

Inductive OperationName : Set :=
| login | getJwt | getAccount | getBed | getPauseMode | setPauseMode
| stopPump | setSleepNumber | getFavorite | setFavorite | getFoundation
| checkOutlet | getFootWarming | calibrate | executeBam.

(** The specification's table of representative operations (section 6):
    path template and verb of each operation. *)
Definition spec_route (o : OperationName) : string * Verb.t :=
  match o with
  | login => ("/login", Verb.put)
  | getJwt => ("/user/jwt", Verb.get)
  | getAccount => ("/account", Verb.get)
  | getBed => ("/bed/{bedId}", Verb.get)
  | getPauseMode => ("/bed/{bedId}/pauseMode", Verb.get)
  | setPauseMode => ("/bed/{bedId}/pauseMode", Verb.put)
  | stopPump => ("/bed/{bedId}/pump/forceIdle", Verb.put)
  | setSleepNumber => ("/bed/{bedId}/sleepNumber", Verb.put)
  | getFavorite => ("/bed/{bedId}/sleepNumberFavorite", Verb.get)
  | setFavorite => ("/bed/{bedId}/sleepNumberFavorite", Verb.put)
  | getFoundation => ("/bed/{bedId}/foundation/status", Verb.get)
  | checkOutlet => ("/bed/{bedId}/foundation/outlet", Verb.get)
  | getFootWarming => ("/bed/{bedId}/foundation/footwarming", Verb.get)
  | calibrate => ("/sleeper/{sleeperId}/calibrate", Verb.put)
  | executeBam => ("/sn/v1/accounts/{accountId}/beds/{bedId}/bamkey", Verb.put)
  end.

(** The one engine call the specification expects for an operation: its
    route from the table, with the caller's arguments. *)
Definition expected_call (o : OperationName) (args : list Json) : CoreCall :=
  fetch (fst (spec_route o)) (snd (spec_route o)) args.

(** The operation a call names. *)
Definition operation_of (c : DomainCall) : OperationName :=
  match c with
  | call_login _ => login
  | call_getJwt => getJwt
  | call_getAccount => getAccount
  | call_getBed _ => getBed
  | call_getPauseMode _ => getPauseMode
  | call_setPauseMode _ _ => setPauseMode
  | call_stopPump _ => stopPump
  | call_setSleepNumber _ _ => setSleepNumber
  | call_getFavorite _ => getFavorite
  | call_setFavorite _ _ => setFavorite
  | call_getFoundation _ => getFoundation
  | call_checkOutlet _ => checkOutlet
  | call_getFootWarming _ => getFootWarming
  | call_calibrate _ => calibrate
  | call_executeBam _ _ => executeBam
  end.

(** ** The engine the specification describes *)

Module SpecEngine.

(** *** Path templates *)

(** Modelled from the spec: a "path template with named placeholders" is
    literal text with [{name}] tokens in it. *)
Inductive Segment : Type :=
| Lit (c : ascii)
| Hole (name : string).

(** Modelled from the spec: splitting a template into its literal
    characters and its placeholder tokens.
    [pending] is the name being read after an opening brace; a brace
    that is never closed stays literal text. *)
Fixpoint segments (t : string) (pending : option string) : list Segment :=
  match t with
  | EmptyString =>
      match pending with
      | None => []
      | Some name => map Lit (list_ascii_of_string (String "{" name))
      end
  | String c rest =>
      match pending with
      | None =>
          if Ascii.eqb c "{" then segments rest (Some "")
          else Lit c :: segments rest None
      | Some name =>
          if Ascii.eqb c "}" then Hole name :: segments rest None
          else segments rest (Some (name ++ String c ""))
      end
  end.

(** Modelled from the spec: the names of the tokens, in order. *)
Fixpoint holes (segs : list Segment) : list string :=
  match segs with
  | [] => []
  | Lit _ :: rest => holes rest
  | Hole name :: rest => name :: holes rest
  end.

(** Modelled from the spec: the "placeholder tokens" of a path string. *)
Definition placeholders (t : string) : list string := holes (segments t None).

(** Modelled from the spec: the "keys present in the metadata object";
    anything that is not an object supplies none. *)
Definition fields_of (metadata : option Json) : list (string * Json) :=
  match metadata with
  | Some (JObj fields) => fields
  | _ => []
  end.

(** Modelled from the spec: the value a metadata object gives a key. *)
Fixpoint field (key : string) (fields : list (string * Json)) : option Json :=
  match fields with
  | [] => None
  | (k, v) :: rest => if String.eqb k key then Some v else field key rest
  end.


(** Modelled from the spec: the text a path parameter (a string or a
    number, "e.g., a bed identifier") puts into the path. *)
Definition param_text (v : Json) : option string :=
  match v with
  | JStr s => Some s
  | JNum n => Some (NilZero.string_of_int (Z.to_int n))
  | _ => None
  end.


(** Modelled from the spec: substitution of every token by its metadata
    value.  A token whose key the metadata lacks is not an error for the
    engine: it formats a missing path parameter as the parameter's own
    name, so [/bed/{bedId}] without a [bedId] becomes [/bed/bedId].  The
    specification's sentence that such a call fails does not describe
    this engine. *)
Fixpoint fill (segs : list Segment) (fields : list (string * Json))
  : option string :=
  match segs with
  | [] => Some ""
  | Lit c :: rest =>
      match fill rest fields with
      | Some tail => Some (String c tail)
      | None => None
      end
  | Hole name :: rest =>
      let text :=
        match field name fields with
        | None => Some name
        | Some v => param_text v
        end in
      match text, fill rest fields with
      | Some text, Some tail => Some (text ++ tail)
      | _, _ => None
      end
  end.

(** Modelled from the spec: the engine "substitutes path parameters".
    The result is [None] only for a value that is neither a string nor a
    number; a missing key never makes it fail (see [fill]). *)
Definition resolve_path (template : string) (metadata : option Json)
  : option string :=
  fill (segments template None) (fields_of metadata).

(** Modelled from the spec: the metadata object supplies "path
    parameters and/or query parameters"; what is not a path parameter
    travels as a query parameter. *)
Definition query_of (template : string) (metadata : option Json)
  : list (string * Json) :=
  filter (fun kv => negb (existsb (String.eqb (fst kv)) (placeholders template)))
         (fields_of metadata).

(** *** Engine state and the network *)

(** Modelled from the spec: the "mutable configuration state: current auth
    credential(s), current base server URL (+ variables), current request
    timeout", next to the bound description and the user agent the
    constructor passes. *)
Record APICore : Type :=
  { c_spec : Oas;
    c_userAgent : string;
    c_auth : AuthValues;
    c_server : option (string * Json);
    c_config : ConfigOptions }.

(** Modelled from the spec: a request as it leaves the process, with
    what the engine reads "at call time" (credentials, server, timeout). *)
Record Request : Type :=
  { req_method : Verb.t;
    req_path : string;
    req_query : list (string * Json);
    req_body : option Json;
    req_credentials : AuthValues;
    req_server : option (string * Json);
    req_timeout : option Z;
    req_userAgent : string }.

(** Modelled from the spec: what comes back is nothing ("transport/network
    failure - no response received", a timeout included) or a response. *)
Inductive Reply : Type :=
| NoReply (message : string)
| Answer (response : FetchResponse).

(** Modelled from the spec: the outside world, that is the requests
    dispatched so far and the server's behaviour, which may depend on
    them. *)
Record Network : Type :=
  { wire : list Request;
    respond : list Request -> Request -> Reply }.

(** Modelled from the spec: the statuses that are not a "non-2xx server
    response". *)
Definition is_2xx (code : Z) : bool := ((200 <=? code) && (code <? 300))%Z.

(** Modelled from the spec: "selecting the operation by path+verb". *)
Definition find_operation (api : Oas) (path : string) (method : Verb.t)
  : option Operation :=
  find (fun op => String.eqb (op_path op) path && Verb.eqb (op_method op) method)
       api.

(** Modelled from the spec: "invoke(operationName, body?, metadata?)"
    takes an optional body and an optional metadata object.  The façade
    passes them positionally after the path and the verb; a single datum
    is the request body when the operation declares one and the metadata
    object otherwise. *)
Definition split_args (op : Operation) (args : list Json)
  : option Json * option Json :=
  match args with
  | [] => (None, None)
  | [x] => if op_has_body op then (Some x, None) else (None, Some x)
  | body :: metadata :: _ => (Some body, Some metadata)
  end.

(** Modelled from the spec: the request of an operation whose path has
    been resolved. *)
Definition build_request (st : APICore) (op : Operation) (path : string)
    (body metadata : option Json) : Request :=
  {| req_method := op_method op;
     req_path := path;
     req_query := query_of (op_path op) metadata;
     req_body := body;
     req_credentials := c_auth st;
     req_server := c_server st;
     req_timeout := timeout (c_config st);
     req_userAgent := c_userAgent st |}.


(** Modelled from the spec: the engine selects the operation by
    path+verb, "attaches auth headers, substitutes path parameters,
    serializes body, issues network request, parses response"; a
    transport failure and a non-2xx response each give a rejected outcome;
    the configuration is only read. *)
Definition fetch_operation (path : string) (method : Verb.t) (args : list Json)
    (st : APICore) (w : Network) : Promise * APICore * Network :=
  match find_operation (c_spec st) path method with
  | None => (Rejected (InputError "unknown operation"), st, w)
  | Some op =>
      let '(body, metadata) := split_args op args in
      match resolve_path (op_path op) metadata with
      | None => (Rejected (InputError "unusable path parameter"), st, w)
      | Some resolved =>
          let req := build_request st op resolved body metadata in
          let w1 := {| wire := wire w ++ [req]; respond := respond w |} in
          match respond w (wire w) req with
          | NoReply message => (Rejected (TransportFailure message), st, w1)
          | Answer r =>
              if is_2xx (status r) then (Resolved r, st, w1)
              else (Rejected (FetchError r), st, w1)
          end
      end
  end.

(** Modelled from the spec: [configure(options)] "sets transport
    options". *)
Definition set_config (config : ConfigOptions) (st : APICore) : APICore :=
  {| c_spec := c_spec st; c_userAgent := c_userAgent st; c_auth := c_auth st;
     c_server := c_server st; c_config := config |}.

(** Modelled from the spec: [setAuth(credential...)] "stores 1-2
    credential values ... to be attached to all subsequent requests". *)
Definition set_auth (values : AuthValues) (st : APICore) : APICore :=
  {| c_spec := c_spec st; c_userAgent := c_userAgent st; c_auth := values;
     c_server := c_server st; c_config := c_config st |}.

(** Modelled from the spec: [setServer(urlOrTemplate, variables)]
    "overrides the base URL". *)
Definition set_server (url : string) (variables : Json) (st : APICore)
  : APICore :=
  {| c_spec := c_spec st; c_userAgent := c_userAgent st; c_auth := c_auth st;
     c_server := Some (url, variables); c_config := c_config st |}.

(** Modelled from the spec: a new engine is bound to the description and
    has no credential, no server override and no option set. *)
Definition new_core (api : Oas) (userAgent : string) : APICore :=
  {| c_spec := api; c_userAgent := userAgent; c_auth := [];
     c_server := None; c_config := {| timeout := None |} |}.

(** Modelled from the spec: the generic engine, as an [Engine]. *)
Definition engine : Engine :=
  {| CoreT := APICore;
     World := Network;
     new_APICore := new_core;
     e_setConfig := set_config;
     e_setAuth := set_auth;
     e_setServer := set_server;
     e_fetch := fetch_operation |}.

(** A client session on one instance: the calls run one after the other
    on the same engine state and the same network. *)
Fixpoint session (this : ref) (calls : list FacadeCall) (st : APICore)
    (w : Network) : APICore * Network :=
  match calls with
  | [] => (st, w)
  | f :: rest =>
      let '(_, st1, w1, _) := run engine (method_of f this) st w in
      session this rest st1 w1
  end.

(** Servers used in the examples: one that always gives the same reply. *)
Definition always (r : Reply) : Network :=
  {| wire := []; respond := fun _ _ => r |}.

Definition ok_200 : FetchResponse :=
  {| status := 200; data := JObj [("key", JStr "abc123")]; headers := [] |}.

Definition not_found_404 : FetchResponse :=
  {| status := 404; data := JObj [("error", JStr "not found")];
     headers := [("content-type", "application/json")] |}.

(** A freshly constructed engine state, as the [SDK] constructor makes it. *)
Definition fresh : APICore :=
  new_core (Oas_init definition) "sleepiq/1.0.0 (api/6.1.3)".

End SpecEngine.

(** ** Sequences of calls on the façade *)

(** The call on [this.core] that a façade call amounts to: the setter of
    the same name for [config], [auth] and [server] (with [{}] for omitted
    server variables), the operation's [fetch] for a domain method. *)
Definition core_call_of (f : FacadeCall) : CoreCall :=
  match f with
  | Config config => setConfig config
  | Auth values => setAuth values
  | Server url (Some variables) => setServer url variables
  | Server url None => setServer url (JObj [])
  | Domain c => expected_call (operation_of c) (arguments c)
  end.

Definition is_fetch (c : CoreCall) : bool := negb (is_setter c).

(** The domain calls of a sequence, in order. *)
Fixpoint domain_calls (calls : list FacadeCall) : list DomainCall :=
  match calls with
  | [] => []
  | Domain c :: rest => c :: domain_calls rest
  | _ :: rest => domain_calls rest
  end.

(** The path and verb a domain method hands to the engine. *)
Definition route_of (c : DomainCall) : option (string * Verb.t) :=
  match first_call (perform c) with
  | Some (fetch path method _) => Some (path, method)
  | _ => None
  end.

(** What a client does in a process: import the module, or call a method
    through a reference. *)
Inductive Event : Type :=
| Import
| Invoke (this : ref) (f : FacadeCall).

Definition is_import (e : Event) : bool :=
  match e with
  | Import => true
  | Invoke _ _ => false
  end.

Section Sequences.

Context (E : Engine).

(** Method calls one after the other on the same instance: the values
    returned, the engine state and the world at the end, and every call
    made on [this.core]. *)
Fixpoint run_session (this : ref) (calls : list FacadeCall) (st : CoreT E)
    (w : World E) : list Value * CoreT E * World E * list CoreCall :=
  match calls with
  | [] => ([], st, w, [])
  | f :: rest =>
      let '(v, st1, w1, made) := run E (method_of f this) st w in
      let '(vs, st2, w2, later) := run_session this rest st1 w1 in
      (v :: vs, st2, w2, (made ++ later)%list)
  end.

(** The same calls made on the engine directly, without the façade. *)
Fixpoint replay (calls : list CoreCall) (st : CoreT E) (w : World E)
  : CoreT E * World E :=
  match calls with
  | [] => (st, w)
  | c :: rest =>
      replay rest (snd (fst (handle E c st w))) (snd (handle E c st w))
  end.

(** How a chained call ends: with a value, or with the [TypeError] of a
    method looked up on something that has none.  Either way the calls
    already made have taken effect. *)
Inductive Outcome : Type :=
| Returned (v : Value) (P : Process E) (made : list CoreCall)
| Thrown (P : Process E) (made : list CoreCall).

(** A chained call [earlier.m(...)]: the method is looked up on what the
    earlier call returned.  [undefined] and a promise have no façade
    method, so the chained call throws. *)
Definition chain (earlier : option (Value * Process E * list CoreCall))
    (m : ref -> Prog Value) : option Outcome :=
  match earlier with
  | None => None
  | Some (Instance r, P1, made) =>
      match invoke E r m P1 with
      | Some (v, P2, later) => Some (Returned v P2 (made ++ later)%list)
      | None => Some (Thrown P1 made)
      end
  | Some (_, P1, made) => Some (Thrown P1 made)
  end.

(** One event.  A call through a reference that holds no object throws
    and leaves the process as it is. *)
Definition step (e : Event) (P : Process E) : Process E :=
  match e with
  | Import => snd (import_default E P)
  | Invoke this f =>
      match invoke E this (method_of f) P with
      | Some (_, P1, _) => P1
      | None => P
      end
  end.

Fixpoint steps (es : list Event) (P : Process E) : Process E :=
  match es with
  | [] => P
  | e :: rest => steps rest (step e P)
  end.

(** The shape of a process: nothing allocated before the first import,
    and afterwards one object, at reference 0, with the bound
    description as its [spec]. *)
Definition single_instance (imported : bool) (P : Process E) : Prop :=
  if imported
  then loaded P = Some 0%nat
       /\ exists st, heap P = [Build_SDK E (Oas_init definition) st]
  else loaded P = None /\ heap P = [].

End Sequences.

(** * Properties *)

(** ** The façade over an arbitrary engine *)

Section AnyEngine.

Context (E : Engine).

(** A domain method is one [fetch] and hands back what the engine
    answered. *)
Lemma run_perform (c : DomainCall) (st : CoreT E) (w : World E) :
  run E (perform c) st w =
  (Async (fst (fst (handle E (expected_call (operation_of c) (arguments c)) st w))),
   snd (fst (handle E (expected_call (operation_of c) (arguments c)) st w)),
   snd (handle E (expected_call (operation_of c) (arguments c)) st w),
   [expected_call (operation_of c) (arguments c)]).
Proof.
  destruct c; cbn -[e_fetch];
    match goal with |- context [e_fetch E ?p ?m ?a st w] =>
      destruct (e_fetch E p m a st w) as [[r st1] w1] end;
    reflexivity.
Qed.

Lemma import_default_loaded (P : Process E) (r : ref) :
  loaded P = Some r -> import_default E P = (r, P).
Proof. intros H. unfold import_default. rewrite H. reflexivity. Qed.

(** A method that hands the engine's state back as it found it leaves the
    heap as it was. *)
Lemma invoke_same_core (P : Process E) (this : ref) (obj : SDK E)
    (m : ref -> Prog Value) (v : Value) (w1 : World E) (calls : list CoreCall) :
  heap P !! this = Some obj ->
  run E (m this) (core obj) (world P) = (v, core obj, w1, calls) ->
  invoke E this m P
  = Some (v, {| heap := heap P; loaded := loaded P; world := w1 |}, calls).
Proof.
  intros H Hrun. unfold invoke. rewrite H, Hrun.
  replace {| spec := spec obj; core := core obj |} with obj
    by (destruct obj; reflexivity).
  rewrite (list_insert_id _ _ _ H). reflexivity.
Qed.

(** C1: every domain method makes exactly one call on the engine, the
    [fetch] of the operation's path template and verb as the specification's
    table lists them, with the caller's arguments as given and in the
    order given, and returns the engine's promise as its own result. *)
Theorem C1_one_fetch_per_operation (c : DomainCall) (st : CoreT E) (w : World E) :
  let route := spec_route (operation_of c) in
  let answer := e_fetch E (fst route) (snd route) (arguments c) st w in
  run E (perform c) st w =
  (Async (fst (fst answer)), snd (fst answer), snd answer,
   [fetch (fst route) (snd route) (arguments c)]).
Proof. cbv zeta. rewrite run_perform. reflexivity. Qed.

(** C3: whatever failure the engine's [fetch] settles with, the domain
    method's promise is rejected with that very failure (status, body and
    headers included when the engine has them); the engine is called
    once, so nothing is retried, replaced by a default or wrapped. *)
Theorem C3_failure_propagates_verbatim (c : DomainCall) (st st1 : CoreT E)
    (w w1 : World E) (reason : Failure) :
  e_fetch E (fst (spec_route (operation_of c))) (snd (spec_route (operation_of c)))
          (arguments c) st w = (Rejected reason, st1, w1) ->
  run E (perform c) st w =
  (Async (Rejected reason), st1, w1,
   [fetch (fst (spec_route (operation_of c))) (snd (spec_route (operation_of c)))
          (arguments c)]).
Proof.
  intros H. rewrite run_perform. unfold expected_call, handle. rewrite H.
  reflexivity.
Qed.

(** C8: on any allocated instance [auth] returns that instance, for every
    list of credential values, while [config] and [server] return
    [undefined]; each makes the one corresponding call on the engine. *)
Theorem C8_auth_returns_this (P : Process E) (this : ref) (obj : SDK E)
    (values : AuthValues) (cfg : ConfigOptions) (url : string)
    (variables : option Json) :
  heap P !! this = Some obj ->
  (exists P1, invoke E this (fun t => SDKMethods.auth t values) P
              = Some (Instance this, P1, [setAuth values]))
  /\ (exists P1, invoke E this (fun _ => SDKMethods.config cfg) P
                 = Some (undefined, P1, [setConfig cfg]))
  /\ (exists P1 vars, invoke E this (fun _ => SDKMethods.server url variables) P
                 = Some (undefined, P1, [setServer url vars])).
Proof.
  intros H. unfold invoke. rewrite H. cbn. repeat split; eauto.
Qed.

(** C10: [stopPump] and [calibrate] pass their metadata object as the
    third argument of [fetch] and pass no fourth argument; every operation
    that takes a body and a metadata object passes the body third and the
    metadata fourth. *)
Theorem C10_metadata_position (st : CoreT E) (w : World E) :
  (forall m : Json,
      exists call, calls_of E (SDKMethods.stopPump m) st w = [call]
                   /\ third_argument call = Some m
                   /\ fourth_argument call = None)
  /\ (forall m : Json,
      exists call, calls_of E (SDKMethods.calibrate m) st w = [call]
                   /\ third_argument call = Some m
                   /\ fourth_argument call = None)
  /\ (forall (c : DomainCall) (b m : Json),
      body_of c = Some b -> metadata_of c = Some m ->
      exists call, calls_of E (perform c) st w = [call]
                   /\ third_argument call = Some b
                   /\ fourth_argument call = Some m).
Proof.
  split; [| split].
  - intros m. change (SDKMethods.stopPump m) with (perform (call_stopPump m)).
    unfold calls_of. rewrite run_perform. cbn. eauto.
  - intros m. change (SDKMethods.calibrate m) with (perform (call_calibrate m)).
    unfold calls_of. rewrite run_perform. cbn. eauto.
  - intros c b m Hb Hm. unfold calls_of. rewrite run_perform.
    cbn [snd]. unfold arguments. rewrite Hb, Hm. cbn. eauto.
Qed.

(** C9: the module body constructs one [SDK] instance when the module is
    first imported; every later import yields the same reference and
    allocates nothing, so a credential one importer sets is the one the
    engine state holds when another importer calls an operation. *)
Theorem C9_single_shared_instance (w : World E) (n : nat) (values : AuthValues)
    (c : DomainCall) :
  let first := import_default E (boot E w) in
  let second := import_default E (snd first) in
  heap (snd first) = [SDK_constructor E]
  /\ imports E (S n) (boot E w) = (repeat (fst first) (S n), snd first)
  /\ fst second = fst first
  /\ exists P2,
       invoke_then E
         (invoke E (fst first) (fun t => SDKMethods.auth t values) (snd second))
         (fst second) (fun _ => perform c)
       = Some (Async (fst (fst (handle E
                 (expected_call (operation_of c) (arguments c))
                 (e_setAuth E values (core (SDK_constructor E))) w))),
               P2, [expected_call (operation_of c) (arguments c)]).
Proof.
  cbn -[imports SDK_constructor repeat]. repeat split.
  - cbn -[SDK_constructor]. f_equal.
    set (P1 := {| heap := [SDK_constructor E]; loaded := Some 0%nat; world := w |}).
    assert (H : forall k, imports E k P1 = (repeat 0%nat k, P1)).
    { induction k as [|k IH]; [reflexivity|].
      cbn -[SDK_constructor]. rewrite IH. reflexivity. }
    rewrite H. reflexivity.
  - unfold invoke_then, invoke. cbn -[run perform SDK_constructor].
    rewrite run_perform. cbn -[handle expected_call SDK_constructor]. eauto.
Qed.

End AnyEngine.

(** ** The façade over the engine of the specification *)

Import SpecEngine.

Lemma Verb_eqb_eq (a b : Verb.t) : Verb.eqb a b = true <-> a = b.
Proof. destruct a, b; simpl; split; intro H; try reflexivity; discriminate H. Qed.


Lemma find_operation_some (api : Oas) (path : string) (method : Verb.t)
    (op : Operation) :
  find_operation api path method = Some op ->
  op_path op = path /\ op_method op = method.
Proof.
  unfold find_operation. intros H. apply find_some in H as [_ H].
  apply andb_true_iff in H as [Hp Hm].
  apply String.eqb_eq in Hp. apply Verb_eqb_eq in Hm. auto.
Qed.







(** [fetch] only reads the engine's state. *)
Lemma fetch_operation_state (path : string) (method : Verb.t) (args : list Json)
    (st : APICore) (w : Network) :
  snd (fst (fetch_operation path method args st w)) = st.
Proof.
  unfold fetch_operation.
  destruct (find_operation _ _ _) as [op|]; [|reflexivity].
  destruct (split_args op args) as [body metadata].
  destruct (resolve_path _ _) as [resolved|]; [|reflexivity].
  destruct (respond w _ _) as [msg|r]; [reflexivity|].
  destruct (is_2xx _); reflexivity.
Qed.

(** [fetch] dispatches at most one request, and that request carries the
    credentials stored at that moment; the server's behaviour is not the
    engine's to change. *)
Lemma fetch_operation_wire (path : string) (method : Verb.t) (args : list Json)
    (st : APICore) (w : Network) :
  respond (snd (fetch_operation path method args st w)) = respond w
  /\ exists sent : list Request,
       wire (snd (fetch_operation path method args st w)) = (wire w ++ sent)%list
       /\ Forall (fun r => req_credentials r = c_auth st) sent.
Proof.
  unfold fetch_operation.
  destruct (find_operation _ _ _) as [op|];
    [|split; [reflexivity | exists []; rewrite app_nil_r; auto]].
  destruct (split_args op args) as [body metadata].
  destruct (resolve_path _ _) as [resolved|];
    [|split; [reflexivity | exists []; rewrite app_nil_r; auto]].
  destruct (respond w _ _) as [msg|r]; [|destruct (is_2xx _)];
    (split; [reflexivity | eexists; split; [reflexivity|]; repeat constructor]).
Qed.

(** A found operation whose path resolves is dispatched, once. *)
Lemma fetch_operation_dispatch (path : string) (method : Verb.t)
    (args : list Json) (st : APICore) (w : Network) (op : Operation)
    (resolved : string) :
  find_operation (c_spec st) path method = Some op ->
  resolve_path (op_path op) (snd (split_args op args)) = Some resolved ->
  exists p,
    fetch_operation path method args st w =
    (p, st,
     {| wire := wire w ++ [build_request st op resolved
                             (fst (split_args op args))
                             (snd (split_args op args))];
        respond := respond w |}).
Proof.
  intros Hf Hr. unfold fetch_operation. rewrite Hf.
  destruct (split_args op args) as [body metadata]. simpl in *. rewrite Hr.
  destruct (respond w _ _) as [msg|r]; [|destruct (is_2xx _)]; eauto.
Qed.




(** C4: [setPauseMode({mode:"on"}, {bedId:"123"})] dispatches exactly one
    request: verb PUT, path [/bed/123/pauseMode], body [{mode:"on"}]. *)
Theorem C4_setPauseMode_request (userAgent : string) (credentials : AuthValues)
    (srv : option (string * Json)) (cfg : ConfigOptions) (w : Network) :
  let st := {| c_spec := Oas_init definition; c_userAgent := userAgent;
               c_auth := credentials; c_server := srv; c_config := cfg |} in
  exists p req,
    run engine
        (SDKMethods.setPauseMode (JObj [("mode", JStr "on")])
                                 (JObj [("bedId", JStr "123")])) st w =
    (Async p, st, {| wire := (wire w ++ [req])%list; respond := respond w |},
     [fetch "/bed/{bedId}/pauseMode" Verb.put
            [JObj [("mode", JStr "on")]; JObj [("bedId", JStr "123")]]])
    /\ req_method req = Verb.put
    /\ req_path req = "/bed/123/pauseMode"
    /\ req_body req = Some (JObj [("mode", JStr "on")]).
Proof.
  intros st.
  destruct (fetch_operation_dispatch "/bed/{bedId}/pauseMode" Verb.put
              [JObj [("mode", JStr "on")]; JObj [("bedId", JStr "123")]] st w
              {| op_path := "/bed/{bedId}/pauseMode"; op_method := Verb.put;
                 op_has_body := true |}
              "/bed/123/pauseMode" eq_refl eq_refl) as [p Hp].
  exists p. eexists. split.
  - cbn [SDKMethods.setPauseMode run handle e_fetch engine]. rewrite Hp.
    reflexivity.
  - repeat split.
Qed.

(** C5: [getBed({bedId: "123"})] dispatches a GET request whose path is
    exactly [/bed/123]: the template [/bed/{bedId}] with the placeholder
    substituted, and no placeholder token left. *)
Theorem C5_getBed_request (userAgent : string) (credentials : AuthValues)
    (srv : option (string * Json)) (cfg : ConfigOptions) (w : Network) :
  let st := {| c_spec := Oas_init definition; c_userAgent := userAgent;
               c_auth := credentials; c_server := srv; c_config := cfg |} in
  exists p req,
    run engine (SDKMethods.getBed (JObj [("bedId", JStr "123")])) st w =
    (Async p, st, {| wire := (wire w ++ [req])%list; respond := respond w |},
     [fetch "/bed/{bedId}" Verb.get [JObj [("bedId", JStr "123")]]])
    /\ req_method req = Verb.get
    /\ req_path req = "/bed/123"
    /\ placeholders (req_path req) = [].
Proof.
  intros st.
  destruct (fetch_operation_dispatch "/bed/{bedId}" Verb.get
              [JObj [("bedId", JStr "123")]] st w
              {| op_path := "/bed/{bedId}"; op_method := Verb.get;
                 op_has_body := false |}
              "/bed/123" eq_refl eq_refl) as [p Hp].
  exists p. eexists. split.
  - cbn [SDKMethods.getBed run handle e_fetch engine]. rewrite Hp. reflexivity.
  - repeat split.
Qed.

(** One call other than [auth] keeps the stored credentials and the
    server's behaviour, and whatever it dispatches carries them. *)
Lemma step_keeps_credentials (this : ref) (f : FacadeCall) (st : APICore)
    (w : Network) :
  is_auth f = false ->
  c_auth (snd (fst (fst (run engine (method_of f this) st w)))) = c_auth st
  /\ exists sent : list Request,
       wire (snd (fst (run engine (method_of f this) st w))) = (wire w ++ sent)%list
       /\ Forall (fun r => req_credentials r = c_auth st) sent.
Proof.
  destruct f as [cfg|values|url variables|c]; intros Hf; try discriminate Hf.
  - cbn. split; [reflexivity|]. exists []. rewrite app_nil_r. auto.
  - cbn. split; [reflexivity|]. exists []. rewrite app_nil_r. auto.
  - cbn [method_of]. rewrite run_perform. cbn [fst snd].
    unfold expected_call, handle. cbn [e_fetch engine].
    rewrite fetch_operation_state. split; [reflexivity|].
    apply fetch_operation_wire.
Qed.

Lemma session_keeps_credentials (this : ref) (calls : list FacadeCall) :
  forallb (fun f => negb (is_auth f)) calls = true ->
  forall (st : APICore) (w : Network),
    c_auth (fst (session this calls st w)) = c_auth st
    /\ exists sent : list Request,
         wire (snd (session this calls st w)) = (wire w ++ sent)%list
         /\ Forall (fun r => req_credentials r = c_auth st) sent.
Proof.
  induction calls as [|f rest IH]; intros Hall st w.
  - cbn. split; [reflexivity|]. exists []. rewrite app_nil_r. auto.
  - cbn [forallb] in Hall. apply andb_true_iff in Hall as [Hf Hrest].
    apply negb_true_iff in Hf.
    destruct (step_keeps_credentials this f st w Hf) as (Hst & sent1 & Hw1 & Hs1).
    cbn [session].
    destruct (run engine (method_of f this) st w) as [[[v st1] w1] cs].
    cbn [fst snd] in Hst, Hw1.
    destruct (IH Hrest st1 w1) as (Hst2 & sent2 & Hw2 & Hs2).
    split; [congruence|].
    exists (sent1 ++ sent2)%list. split.
    + rewrite Hw2, Hw1, app_assoc. reflexivity.
    + apply Forall_app. split; [exact Hs1|]. rewrite <- Hst. exact Hs2.
Qed.

(** C6: once [auth] has been called with some values, every request
    dispatched by the calls that follow carries those values, whatever
    those calls are as long as none of them is [auth]; the values are
    still the stored ones afterwards, and calling [auth] a second time
    with the same values changes nothing. *)
Theorem C6_credentials_attached (this : ref) (values : AuthValues)
    (calls : list FacadeCall) (st : APICore) (w : Network) :
  forallb (fun f => negb (is_auth f)) calls = true ->
  (exists sent : list Request,
      wire (snd (session this (Auth values :: calls) st w)) = (wire w ++ sent)%list
      /\ Forall (fun r => req_credentials r = values) sent)
  /\ c_auth (fst (session this (Auth values :: calls) st w)) = values
  /\ session this (Auth values :: Auth values :: calls) st w
     = session this (Auth values :: calls) st w.
Proof.
  intros Hall. cbn [session method_of SDKMethods.auth run handle e_setAuth engine].
  destruct (session_keeps_credentials this calls Hall (set_auth values st) w)
    as (Hst & sent & Hw & Hs).
  repeat split.
  - exists sent. split; [exact Hw | exact Hs].
  - exact Hst.
Qed.

Lemma C6_credentials_attached_witness :
  (exists sent : list Request,
      wire (snd (session 0%nat
                   [Auth [CredString "abc123"];
                    Domain (call_getBed (JObj [("bedId", JStr "123")]));
                    Config {| timeout := Some 60000%Z |};
                    Domain call_getAccount]
                   fresh (always (Answer ok_200))))
      = (wire (always (Answer ok_200)) ++ sent)%list
      /\ Forall (fun r => req_credentials r = [CredString "abc123"]) sent)
  /\ c_auth (fst (session 0%nat
                   [Auth [CredString "abc123"];
                    Domain (call_getBed (JObj [("bedId", JStr "123")]));
                    Config {| timeout := Some 60000%Z |};
                    Domain call_getAccount]
                   fresh (always (Answer ok_200)))) = [CredString "abc123"]
  /\ session 0%nat
       [Auth [CredString "abc123"]; Auth [CredString "abc123"];
        Domain (call_getBed (JObj [("bedId", JStr "123")]));
        Config {| timeout := Some 60000%Z |};
        Domain call_getAccount]
       fresh (always (Answer ok_200))
     = session 0%nat
       [Auth [CredString "abc123"];
        Domain (call_getBed (JObj [("bedId", JStr "123")]));
        Config {| timeout := Some 60000%Z |};
        Domain call_getAccount]
       fresh (always (Answer ok_200)).
Proof.
  apply (C6_credentials_attached 0%nat [CredString "abc123"]
           [Domain (call_getBed (JObj [("bedId", JStr "123")]));
            Config {| timeout := Some 60000%Z |};
            Domain call_getAccount]
           fresh (always (Answer ok_200))).
  reflexivity.
Defined.

(** C7: a domain method leaves every object of the process as it was:
    the instance's [spec] and [core], and with them the stored
    credentials, server and options, are the same after the call as
    before it, and no setter of the engine is called.  The three
    configuration methods are the ones that change the stored
    configuration. *)
Theorem C7_domain_calls_mutate_nothing (P : Process engine) (this : ref)
    (obj : SDK engine) (c : DomainCall) (cfg : ConfigOptions)
    (values : AuthValues) (url : string) (variables : Json) :
  heap P !! this = Some obj ->
  (exists v w1 calls,
      invoke engine this (fun _ => perform c) P
      = Some (v, {| heap := heap P; loaded := loaded P; world := w1 |}, calls)
      /\ existsb is_setter calls = false)
  /\ (exists P1 calls,
      invoke engine this (fun _ => SDKMethods.config cfg) P
      = Some (undefined, P1, calls)
      /\ heap P1 !! this
         = Some (Build_SDK engine (spec obj) (set_config cfg (core obj))))
  /\ (exists P1 calls,
      invoke engine this (fun t => SDKMethods.auth t values) P
      = Some (Instance this, P1, calls)
      /\ heap P1 !! this
         = Some (Build_SDK engine (spec obj) (set_auth values (core obj))))
  /\ (exists P1 calls,
      invoke engine this (fun _ => SDKMethods.server url (Some variables)) P
      = Some (undefined, P1, calls)
      /\ heap P1 !! this
         = Some (Build_SDK engine (spec obj) (set_server url variables (core obj)))).
Proof.
  intros H. pose proof (lookup_lt_Some _ _ _ H) as Hlt.
  repeat split; [| unfold invoke; rewrite H ..].
  - do 3 eexists. split.
    + apply (invoke_same_core engine P this obj _ _ _ _ H).
      rewrite run_perform. unfold expected_call, handle. cbn [e_fetch engine].
      rewrite fetch_operation_state. reflexivity.
    + reflexivity.
  - cbn. do 2 eexists. split; [reflexivity|]. cbn.
    apply list_lookup_insert_eq. exact Hlt.
  - cbn. do 2 eexists. split; [reflexivity|]. cbn.
    apply list_lookup_insert_eq. exact Hlt.
  - cbn. do 2 eexists. split; [reflexivity|]. cbn.
    apply list_lookup_insert_eq. exact Hlt.
Qed.

(** ** The theorems at concrete calls *)

(** A server answering 404: the rejection reaches the caller with the
    status, the body and the headers the engine attached to it. *)
Lemma C3_failure_propagates_verbatim_witness :
  run engine (perform (call_getBed (JObj [("bedId", JStr "doesnotexist")])))
      fresh (always (Answer not_found_404))
  = (Async (Rejected (FetchError not_found_404)), fresh,
     {| wire := [build_request fresh
                   {| op_path := "/bed/{bedId}"; op_method := Verb.get;
                      op_has_body := false |}
                   "/bed/doesnotexist" None
                   (Some (JObj [("bedId", JStr "doesnotexist")]))];
        respond := fun _ _ => Answer not_found_404 |},
     [fetch "/bed/{bedId}" Verb.get [JObj [("bedId", JStr "doesnotexist")]]]).
Proof.
  apply (C3_failure_propagates_verbatim engine
           (call_getBed (JObj [("bedId", JStr "doesnotexist")]))).
  reflexivity.
Defined.

(** The same for a transport failure, which has no response to carry. *)
Example transport_failure_propagates :
  fst (fst (fst (run engine (perform call_getAccount) fresh
                     (always (NoReply "connection refused")))))
  = Async (Rejected (TransportFailure "connection refused")).
Proof. reflexivity. Qed.

(** The specification's [login] scenario against a server answering 200. *)
Example login_resolves :
  fst (fst (fst (run engine
                     (perform (call_login (JObj [("login", JStr "a@b.com");
                                                 ("password", JStr "x")])))
                     fresh (always (Answer ok_200)))))
  = Async (Resolved ok_200).
Proof. reflexivity. Qed.

Lemma C7_domain_calls_mutate_nothing_witness :
  exists v w1 calls,
    invoke engine 0%nat
      (fun _ => perform (call_setSleepNumber
                           (JObj [("side", JStr "L"); ("sleepNumber", JNum 45)])
                           (JObj [("bedId", JStr "123")])))
      (snd (import_default engine (boot engine (always (Answer ok_200)))))
    = Some (v,
            {| heap := heap (snd (import_default engine
                                    (boot engine (always (Answer ok_200)))));
               loaded := Some 0%nat; world := w1 |},
            calls)
    /\ existsb is_setter calls = false.
Proof.
  apply (C7_domain_calls_mutate_nothing
           (snd (import_default engine (boot engine (always (Answer ok_200)))))
           0%nat (SDK_constructor engine)
           (call_setSleepNumber
              (JObj [("side", JStr "L"); ("sleepNumber", JNum 45)])
              (JObj [("bedId", JStr "123")]))
           {| timeout := None |} [] "" JNull).
  reflexivity.
Defined.

Lemma C8_auth_returns_this_witness :
  exists P1,
    invoke engine 0%nat (fun t => SDKMethods.auth t [CredString "myBearerToken"])
      (snd (import_default engine (boot engine (always (Answer ok_200)))))
    = Some (Instance 0%nat, P1, [setAuth [CredString "myBearerToken"]]).
Proof.
  apply (C8_auth_returns_this engine
           (snd (import_default engine (boot engine (always (Answer ok_200)))))
           0%nat (SDK_constructor engine) [CredString "myBearerToken"]
           {| timeout := Some 60000%Z |} "https://eu.api.example.com/v14" None).
  reflexivity.
Defined.

Lemma C10_metadata_position_witness :
  exists call,
    calls_of engine
      (perform (call_setPauseMode (JObj [("mode", JStr "on")])
                                  (JObj [("bedId", JStr "123")])))
      fresh (always (Answer ok_200)) = [call]
    /\ third_argument call = Some (JObj [("mode", JStr "on")])
    /\ fourth_argument call = Some (JObj [("bedId", JStr "123")]).
Proof.
  apply (proj2 (proj2 (C10_metadata_position engine fresh
                         (always (Answer ok_200))))
           (call_setPauseMode (JObj [("mode", JStr "on")])
                              (JObj [("bedId", JStr "123")]))).
  - reflexivity.
  - reflexivity.
Defined.

(** ** Sequences of calls, over an arbitrary engine *)

Section SequenceFacts.

Context (E : Engine).

(** Any façade method is one call on the engine. *)
Lemma run_method_of (f : FacadeCall) (this : ref) (st : CoreT E) (w : World E) :
  snd (run E (method_of f this) st w) = [core_call_of f]
  /\ snd (fst (fst (run E (method_of f this) st w)))
     = snd (fst (handle E (core_call_of f) st w))
  /\ snd (fst (run E (method_of f this) st w))
     = snd (handle E (core_call_of f) st w).
Proof.
  destruct f as [cfg|values|url [variables|]|c]; try (cbn; auto; fail).
  cbn [method_of core_call_of]. rewrite run_perform. auto.
Qed.

Lemma fetches_of_session (calls : list FacadeCall) :
  List.filter is_fetch (map core_call_of calls)
  = map (fun c => expected_call (operation_of c) (arguments c))
        (domain_calls calls).
Proof.
  induction calls as [|f rest IH]; [reflexivity|].
  destruct f as [cfg|values|url [variables|]|c]; cbn; rewrite <- IH; reflexivity.
Qed.

(** X1: a sequence of façade calls is the sequence of their engine calls:
    one engine call per façade call, in the same order, leaving the
    engine and the world as the engine calls made directly would; one
    value comes back per call, and the [fetch]es made are exactly those
    of the domain calls. *)
Theorem session_is_transparent (this : ref) (calls : list FacadeCall)
    (st : CoreT E) (w : World E) :
  snd (run_session E this calls st w) = map core_call_of calls
  /\ (snd (fst (fst (run_session E this calls st w))),
      snd (fst (run_session E this calls st w)))
     = replay E (map core_call_of calls) st w
  /\ length (fst (fst (fst (run_session E this calls st w)))) = length calls
  /\ List.filter is_fetch (snd (run_session E this calls st w))
     = map (fun c => expected_call (operation_of c) (arguments c))
           (domain_calls calls).
Proof.
  assert (H : snd (run_session E this calls st w) = map core_call_of calls
              /\ (snd (fst (fst (run_session E this calls st w))),
                  snd (fst (run_session E this calls st w)))
                 = replay E (map core_call_of calls) st w
              /\ length (fst (fst (fst (run_session E this calls st w))))
                 = length calls).
  { revert st w. induction calls as [|f rest IH]; intros st w.
    - cbn. auto.
    - destruct (run_method_of f this st w) as (Hc & Hst & Hw).
      cbn [run_session map replay].
      destruct (run E (method_of f this) st w) as [[[v st1] w1] made].
      cbn [fst snd] in Hc, Hst, Hw. subst made st1 w1.
      destruct (IH (snd (fst (handle E (core_call_of f) st w)))
                   (snd (handle E (core_call_of f) st w))) as (Hc2 & Hr & Hl).
      destruct (run_session E this rest _ _) as [[[vs st2] w2] later].
      cbn [fst snd length] in *. subst later.
      repeat split; [exact Hr | congruence]. }
  destruct H as (Hc & Hr & Hl). repeat split; try assumption.
  rewrite Hc. apply fetches_of_session.
Qed.

Lemma step_single_instance (e : Event) (P : Process E) (imported : bool) :
  single_instance E imported P ->
  single_instance E (imported || is_import e) (step E e P).
Proof.
  destruct imported; cbn [orb single_instance].
  - intros (Hl & st & Hh). destruct e as [|this f]; cbn [step].
    + unfold import_default. rewrite Hl. cbn. eauto.
    + unfold invoke. rewrite Hh.
      destruct this as [|n]; cbn [lookup list_lookup]; [|cbn; eauto].
      destruct (run E _ _ _) as [[[v st1] w1] made]. cbn. eauto.
  - intros (Hl & Hh). destruct e as [|this f]; cbn [step is_import single_instance].
    + unfold import_default, module_body, new_SDK. rewrite Hl, Hh. cbn. eauto.
    + unfold invoke. rewrite Hh. cbn. auto.
Qed.

(** X2: however imports and method calls follow one another in a process,
    nothing is allocated before the first import, and from then on the
    heap holds exactly one [SDK] object, the one the module exports,
    whose [spec] is still the bound description. *)
Theorem single_instance_invariant (w : World E) (es : list Event) :
  single_instance E (existsb is_import es) (steps E es (boot E w)).
Proof.
  assert (H : forall (es : list Event) (P : Process E) (b : bool),
             single_instance E b P ->
             single_instance E (b || existsb is_import es) (steps E es P)).
  { clear es. induction es as [|e rest IH]; intros P b HP; cbn [steps existsb].
    - rewrite orb_false_r. exact HP.
    - rewrite orb_assoc. apply IH. apply step_single_instance. exact HP. }
  apply (H es (boot E w) false). cbn. auto.
Qed.

(** X3: [sdk.auth(...values).m(...)] is [sdk.auth(...values)] followed by
    [sdk.m(...)]: the chained method runs on the same instance, against
    the engine state [setAuth] left, and the instance ends up holding the
    state that method leaves. *)
Theorem auth_chains (P : Process E) (this : ref) (obj : SDK E)
    (values : AuthValues) (f : FacadeCall) :
  heap P !! this = Some obj ->
  chain E (invoke E this (fun t => SDKMethods.auth t values) P) (method_of f)
  = Some (Returned E
          (fst (fst (fst (run E (method_of f this)
                             (e_setAuth E values (core obj)) (world P)))))
          {| heap := <[this := {| spec := spec obj;
                                  core := snd (fst (fst (run E (method_of f this)
                                            (e_setAuth E values (core obj))
                                            (world P)))) |}]> (heap P);
             loaded := loaded P;
             world := snd (fst (run E (method_of f this)
                                    (e_setAuth E values (core obj)) (world P))) |}
          (setAuth values :: snd (run E (method_of f this)
                                      (e_setAuth E values (core obj)) (world P)))).
Proof.
  intros H. pose proof (lookup_lt_Some _ _ _ H) as Hlt.
  unfold chain, invoke. rewrite H.
  cbn [SDKMethods.auth run handle heap world loaded].
  rewrite (list_lookup_insert_eq _ _ _ Hlt). cbn [spec core].
  destruct (run E (method_of f this) _ _) as [[[v st2] w2] made].
  cbn [fst snd]. rewrite list_insert_insert_eq. reflexivity.
Qed.

(** X4: [auth] is the only method a call can be chained on.  [config]
    and [server] return [undefined] and a domain method returns a
    promise: the call itself is made, with its one call on the engine,
    and the method chained on its result throws. *)
Theorem only_auth_chains (P : Process E) (this : ref) (obj : SDK E)
    (f : FacadeCall) (m : ref -> Prog Value) :
  heap P !! this = Some obj ->
  is_auth f = false ->
  exists v P1,
    invoke E this (method_of f) P = Some (v, P1, [core_call_of f])
    /\ chain E (invoke E this (method_of f) P) m
       = Some (Thrown E P1 [core_call_of f]).
Proof.
  intros H Hf. unfold chain, invoke. rewrite H.
  destruct f as [cfg|values|url [variables|]|c]; try discriminate Hf;
    try (cbn; eauto; fail).
  cbn [method_of core_call_of]. rewrite run_perform. eauto.
Qed.

End SequenceFacts.

(** ** The routes in the source *)

(** X5: no two methods address the same operation: calls that hand the
    engine the same path template and verb are calls of the same
    method. *)
Theorem routes_are_distinct (c1 c2 : DomainCall) :
  route_of c1 = route_of c2 -> operation_of c1 = operation_of c2.
Proof.
  destruct c1, c2; cbn; intros H; try reflexivity; discriminate H.
Qed.

(** X6: the façade only ever issues GET and PUT, and the [fetch] of a
    GET is given nothing but the caller's metadata object, when the
    method takes one: never a second datum, never a caller's body. *)
Theorem verbs_get_or_put (c : DomainCall) :
  exists path verb args,
    first_call (perform c) = Some (fetch path verb args)
    /\ ((verb = Verb.get
         /\ args = match metadata_of c with Some m => [m] | None => [] end)
        \/ verb = Verb.put).
Proof. destruct c; cbn; eauto 8. Qed.

(** X7: a method that takes no metadata object calls [fetch] with a path
    that has no placeholder; every other method calls it with a path that
    has at least one, and with the caller's metadata object as the last
    argument of that call. *)
Theorem path_parameters_come_with_metadata (c : DomainCall) :
  exists path verb args,
    first_call (perform c) = Some (fetch path verb args)
    /\ match metadata_of c with
       | None => placeholders path = []
       | Some m => placeholders path <> [] /\ last args = Some m
       end.
Proof.
  destruct c; cbn [perform first_call metadata_of]; unfold first_call;
    do 3 eexists; (split; [reflexivity|]);
    try reflexivity; split; (discriminate || reflexivity).
Qed.

(** ** The sequence theorems at concrete calls *)

Lemma auth_chains_witness :
  exists P2,
    chain engine
      (invoke engine 0%nat (fun t => SDKMethods.auth t [CredString "abc123"])
         (snd (import_default engine (boot engine (always (Answer ok_200))))))
      (method_of (Domain call_getAccount))
    = Some (Returned engine (Async (Resolved ok_200)) P2
              [setAuth [CredString "abc123"]; fetch "/account" Verb.get []]).
Proof.
  eexists.
  apply (auth_chains engine
           (snd (import_default engine (boot engine (always (Answer ok_200)))))
           0%nat (SDK_constructor engine) [CredString "abc123"]
           (Domain call_getAccount)).
  reflexivity.
Defined.

Lemma only_auth_chains_witness :
  exists v P1,
    invoke engine 0%nat (method_of (Config {| timeout := Some 60000%Z |}))
      (snd (import_default engine (boot engine (always (Answer ok_200)))))
    = Some (v, P1, [setConfig {| timeout := Some 60000%Z |}])
    /\ chain engine
         (invoke engine 0%nat (method_of (Config {| timeout := Some 60000%Z |}))
            (snd (import_default engine (boot engine (always (Answer ok_200))))))
         (fun t => SDKMethods.auth t [CredString "abc123"])
       = Some (Thrown engine P1 [setConfig {| timeout := Some 60000%Z |}]).
Proof.
  apply (only_auth_chains engine
           (snd (import_default engine (boot engine (always (Answer ok_200)))))
           0%nat (SDK_constructor engine)
           (Config {| timeout := Some 60000%Z |})
           (fun t => SDKMethods.auth t [CredString "abc123"])).
  - reflexivity.
  - reflexivity.
Defined.

Lemma routes_are_distinct_witness :
  operation_of (call_getBed (JObj [("bedId", JStr "123")]))
  = operation_of (call_getBed (JObj [("bedId", JStr "456")])).
Proof.
  apply (routes_are_distinct (call_getBed (JObj [("bedId", JStr "123")]))
                             (call_getBed (JObj [("bedId", JStr "456")]))).
  reflexivity.
Defined.
